(** * Entity resolution and merge engine of the restaurant catalogue

    A shallow embedding of the Python scripts
    [scripts/merge_restaurant_lists.py], [scripts/merge_place_ids.py] and
    [scripts/deduplicate_restaurants.py], followed by the properties of the
    specification that were checked against them.

    Conventions of the embedding.
    - A Python [str] is the list of its code points ([str := list N]).
    - A restaurant is the [dict] that [json.load] produced: a finite map
      from field names to JSON values ([gmap string val]).  A missing key
      and a key bound to [None] are different things, as in the code.
    - A Python exception is a value [Raise e] of the result type [res]. *)

From Stdlib Require Import QArith.
From stdpp Require Import base numbers list strings gmap.

Set Warnings "-register-all".
Local Open Scope N_scope.

(** ** Python strings *)

Module PyStr.

Abbreviation str := (list N).

(** [u "abc"] is the Python literal ['abc'] (ASCII text only). *)
Definition u (s : string) : str :=
  List.map (fun a => N.of_nat (Ascii.nat_of_ascii a)) (String.list_ascii_of_string s).

(** The Unicode character database outside ASCII: what [str.isspace],
    [str.isalnum], [str.isdecimal] and the full lower-case mapping answer
    for a code point above U+007F.  The scripts never name these tables;
    every definition below takes them as they are. *)
Class Unicode := {
  uni_isspace : N → bool;
  uni_isalnum : N → bool;
  uni_isdecimal : N → bool;
  uni_lower : N → list N
}.

Definition is_ascii (c : N) : bool := c <? 128.

Definition ascii_isspace (c : N) : bool :=
  ((9 <=? c) && (c <=? 13)) || ((28 <=? c) && (c <=? 32)).
Definition ascii_isupper (c : N) : bool := (65 <=? c) && (c <=? 90).
Definition ascii_islower (c : N) : bool := (97 <=? c) && (c <=? 122).
Definition ascii_isdigit (c : N) : bool := (48 <=? c) && (c <=? 57).
Definition ascii_isalnum (c : N) : bool :=
  ascii_isupper c || ascii_islower c || ascii_isdigit c.

Section WithUnicode.
Context {U : Unicode}.

(** [str.isspace] on one character; also the class [\s] of [re]. *)
Definition isspace (c : N) : bool :=
  if is_ascii c then ascii_isspace c else uni_isspace c.

(** The class [\w] of [re] on [str] patterns: alphanumeric or ['_']. *)
Definition isword (c : N) : bool :=
  if is_ascii c then ascii_isalnum c || (c =? 95) else uni_isalnum c.

(** The class [\d] of [re] on [str] patterns. *)
Definition isdigit (c : N) : bool :=
  if is_ascii c then ascii_isdigit c else uni_isdecimal c.

Definition lower_char (c : N) : list N :=
  if is_ascii c then [if ascii_isupper c then c + 32 else c] else uni_lower c.

(** [s.lower()], character by character (the one context-dependent rule
    of Python, final sigma, is not modelled). *)
Definition lower (s : str) : str := flat_map lower_char s.

Fixpoint lstrip (s : str) : str :=
  match s with
  | [] => []
  | c :: t => if isspace c then lstrip t else s
  end.

Definition rstrip (s : str) : str := rev (lstrip (rev s)).

(** [s.strip()] *)
Definition strip (s : str) : str := rstrip (lstrip s).

(** [s.split()]: the maximal runs of non-whitespace characters.  [cur]
    is the run being read, reversed. *)
Fixpoint split_go (cur : str) (s : str) : list str :=
  match s with
  | [] => if cur is [] then [] else [rev cur]
  | c :: t =>
      if isspace c
      then (if cur is [] then split_go [] t else rev cur :: split_go [] t)
      else split_go (c :: cur) t
  end.

Definition split (s : str) : list str := split_go [] s.

End WithUnicode.

(** An excerpt of the character database, enough to run the examples of
    this file: the Latin-1 supplement, and the whitespace of the general
    punctuation block.  Every other code point above U+007F is taken for
    a symbol without case, which is what U+2018 and U+2019, the curly
    apostrophes, are. *)
Definition between (lo hi c : N) : bool := (lo <=? c) && (c <=? hi).

Definition ucd_excerpt : Unicode := {|
  uni_isspace c :=
    (c =? 133) || (c =? 160) || (c =? 5760) || between 8192 8202 c ||
    (c =? 8232) || (c =? 8233) || (c =? 8239) || (c =? 8287) || (c =? 12288);
  uni_isalnum c :=
    (c =? 170) || (c =? 178) || (c =? 179) || (c =? 181) || (c =? 185) ||
    (c =? 186) || between 188 190 c || between 192 214 c ||
    between 216 246 c || between 248 255 c;
  uni_isdecimal c := false;
  uni_lower c :=
    [if (between 192 214 c || between 216 222 c) then c + 32 else c]
|}.

(** [sep.join(parts)] *)
Fixpoint join (sep : str) (parts : list str) : str :=
  match parts with
  | [] => []
  | [p] => p
  | p :: ps => p ++ sep ++ join sep ps
  end.

(** [s.replace(old, new)] for a one-character [old]. *)
Definition replace_char (old : N) (new : str) (s : str) : str :=
  flat_map (fun c => if c =? old then new else [c]) s.

Definition str_eqb (a b : str) : bool := bool_decide (a = b).

Fixpoint startswith (p s : str) : bool :=
  match p, s with
  | [], _ => true
  | _ :: _, [] => false
  | a :: p', b :: s' => (a =? b) && startswith p' s'
  end.

(** [a in b] on strings: [a] occurs in [b] as a contiguous substring. *)
Fixpoint contains (a b : str) : bool :=
  startswith a b ||
  match b with
  | [] => false
  | _ :: b' => contains a b'
  end.

(** [a < b] on strings: lexicographic on code points. *)
Fixpoint str_ltb (a b : str) : bool :=
  match a, b with
  | _, [] => false
  | [], _ :: _ => true
  | x :: a', y :: b' => (x <? y) || ((x =? y) && str_ltb a' b')
  end.

(** [str(n)] for a natural number [n]: its decimal digits. *)
Definition digit_char (d : N) : N := 48 + d.

Fixpoint decimal_go (fuel : nat) (n : N) (acc : str) : str :=
  match fuel with
  | O => acc
  | S fuel' =>
      let acc' := digit_char (n mod 10) :: acc in
      if n / 10 =? 0 then acc' else decimal_go fuel' (n / 10) acc'
  end.

Definition str_of_N (n : N) : str := decimal_go (S (N.to_nat (N.log2 n))) n [].

End PyStr.

(** ** The regular expressions used by the scripts

    Each pattern of the scripts is embedded as the function that [re.sub] or
    [re.search] computes for it. *)

Module Re.
Import PyStr.

Section WithUnicode.
Context {U : Unicode}.

(** [re.sub(r'[^\w\s]', '', s)]: delete every character that is neither
    a word character nor whitespace. *)
Definition sub_nonword_nonspace (s : str) : str :=
  filter (fun c => isword c || isspace c) s.

(** [re.sub(r'\s+', ' ', s)]: every maximal run of whitespace becomes one
    U+0020.  [in_run] tells that the previous character was whitespace. *)
Fixpoint collapse_go (in_run : bool) (s : str) : str :=
  match s with
  | [] => []
  | c :: t =>
      if isspace c
      then (if in_run then collapse_go true t else 32 :: collapse_go true t)
      else c :: collapse_go false t
  end.

Definition sub_spaces (s : str) : str := collapse_go false s.

(** [\bW\b] matches at the head of [s], given whether the character
    before it is a word character: the text starts with [W] and no word
    character follows ([W] itself starts and ends with word characters). *)
Definition word_at (w : str) (prev_word : bool) (s : str) : bool :=
  negb prev_word && startswith w s &&
  match drop (length w) s with
  | [] => true
  | d :: _ => negb (isword d)
  end.

(** [re.sub(r'\bW\b', R, s)], scanning left to right: at a match emit
    [R] and jump over the [length W] matched characters ([skip] counts
    those still to jump over), otherwise copy one character. *)
Fixpoint sub_word_go (w r : str) (skip : nat) (prev_word : bool) (s : str) : str :=
  match s with
  | [] => []
  | c :: t =>
      match skip with
      | S k => sub_word_go w r k (isword c) t
      | O =>
          if word_at w prev_word s
          then r ++ sub_word_go w r (length w - 1) (isword c) t
          else c :: sub_word_go w r 0 (isword c) t
      end
  end.

Definition sub_word (w r : str) (s : str) : str := sub_word_go w r 0 false s.

(** The longest prefix of [s] whose characters satisfy [p], and the rest. *)
Fixpoint span (p : N → bool) (s : str) : str * str :=
  match s with
  | [] => ([], [])
  | c :: t => if p c then let '(a, b) := span p t in (c :: a, b) else ([], s)
  end.

(** [(\d+)\s+([\w\s]+)] anchored at the head of [s]; the result is
    [(group(1), group(2))].  The quantifiers are greedy: when nothing of
    [[\w\s]] follows the whitespace run, the run gives back its last
    character, which then is all of group 2. *)
Definition street_at (s : str) : option (str * str) :=
  let '(ds, r1) := span isdigit s in
  if ds is [] then None else
  let '(ws, r2) := span isspace r1 in
  if ws is [] then None else
  let '(g2, _) := span (fun c => isword c || isspace c) r2 in
  if g2 is [] then
    match rev ws with
    | last :: _ :: _ => Some (ds, [last])
    | _ => None
    end
  else Some (ds, g2).

(** [re.search(r'(\d+)\s+([\w\s]+)', s)]: the leftmost match. *)
Fixpoint search_street (s : str) : option (str * str) :=
  match street_at s with
  | Some g => Some g
  | None =>
      match s with
      | [] => None
      | _ :: t => search_street t
      end
  end.

End WithUnicode.
End Re.

(** ** [scripts/merge_restaurant_lists.py]: the two normalizers *)

Module Normalizer.
Import PyStr Re.

Section WithUnicode.
Context {U : Unicode}.

Definition normalize_name (name : str) : str :=
  if name is [] then [] else
  let normalized := strip (lower name) in
  let normalized := sub_nonword_nonspace normalized in
  let normalized := sub_spaces normalized in
  normalized.

Definition normalize_address (address : str) : str :=
  if address is [] then [] else
  let normalized := strip (lower address) in
  let normalized := sub_word (u "street") (u "st") normalized in
  let normalized := sub_word (u "avenue") (u "ave") normalized in
  let normalized := sub_word (u "boulevard") (u "blvd") normalized in
  let normalized := sub_word (u "place") (u "pl") normalized in
  let normalized := sub_word (u "road") (u "rd") normalized in
  let normalized := sub_word (u "drive") (u "dr") normalized in
  let normalized := sub_nonword_nonspace normalized in
  let normalized := sub_spaces normalized in
  normalized.

End WithUnicode.
End Normalizer.

(** ** [scripts/merge_place_ids.py]: its own [normalize_name] *)

Module MergePlaceIds.
Import PyStr.

Section WithUnicode.
Context {U : Unicode}.

(** The first two assignments to [normalized] are dead: each later one
    starts again from [name]. *)
Definition normalize_name (name : str) : str :=
  if name is [] then [] else
  let normalized := strip (lower name) in
  let normalized := replace_char 39 [39] (replace_char 39 [39] name) in
  let normalized := replace_char 38 (u "and") name in
  let normalized := replace_char 44 [] (replace_char 46 [] normalized) in
  let normalized := join [32] (split normalized) in
  normalized.

End WithUnicode.
End MergePlaceIds.

(** ** Python values, exceptions and dictionaries *)

Module Py.
Import PyStr.

Inductive exn := TypeError | AttributeError | KeyError | IndexError | NotModelled.

(** The outcome of running Python code: a value, or an exception raised.
    [NotModelled] marks the one operation this development leaves out,
    ordering two lists. *)
Inductive res (A : Type) :=
| Ok (a : A)
| Raise (e : exn).
Arguments Ok {A} a.
Arguments Raise {A} e.

#[export] Instance res_ret : MRet res := fun A a => Ok a.
#[export] Instance res_bind : MBind res := fun A B f m =>
  match m with
  | Ok a => f a
  | Raise e => Raise e
  end.

(** A [for] loop over [l] whose body updates the state [s] and may raise. *)
Fixpoint for_each {S A : Type} (body : S → A → res S) (s : S) (l : list A) : res S :=
  match l with
  | [] => Ok s
  | x :: l' => s' ← body s x; for_each body s' l'
  end.

(** What [json.load] returns.  A float is the rational it denotes (NaN and
    the infinities are left out). *)
Inductive val :=
| VNone
| VBool (b : bool)
| VInt (z : Z)
| VFloat (q : Q)
| VStr (s : str)
| VList (l : list val)
| VDict (kvs : list (str * val)).

Abbreviation dict := (gmap string val).

(** [bool(v)] *)
Definition truthy (v : val) : bool :=
  match v with
  | VNone => false
  | VBool b => b
  | VInt z => negb (z =? 0)%Z
  | VFloat q => negb (Qeq_bool q 0)
  | VStr s => if s is [] then false else true
  | VList l => if l is [] then false else true
  | VDict kvs => if kvs is [] then false else true
  end.

(** [d.get(k, default)] and [d.get(k)] *)
Definition get_or (d : dict) (k : string) (default : val) : val :=
  match d !! k with
  | Some v => v
  | None => default
  end.
Definition get (d : dict) (k : string) : val := get_or d k VNone.

(** [d[k]] *)
Definition getitem (d : dict) (k : string) : res val :=
  match d !! k with
  | Some v => Ok v
  | None => Raise KeyError
  end.

(** The number a [bool], [int] or [float] stands for. *)
Definition num (v : val) : option Q :=
  match v with
  | VBool b => Some (inject_Z (if b then 1 else 0))
  | VInt z => Some (inject_Z z)
  | VFloat q => Some q
  | _ => None
  end.

Definition Qltb (a b : Q) : bool := negb (Qle_bool b a).

(** [a < b] *)
Definition val_lt (a b : val) : res bool :=
  match num a, num b with
  | Some x, Some y => Ok (Qltb x y)
  | _, _ =>
      match a, b with
      | VStr s, VStr t => Ok (str_ltb s t)
      | VList _, VList _ => Raise NotModelled
      | _, _ => Raise TypeError
      end
  end.

(** [a > b] *)
Definition val_gt (a b : val) : res bool := val_lt b a.

(** [a == b] when one side at least is [None], a number or a string
    (which is all the scripts compare). *)
Definition py_eq (a b : val) : bool :=
  match num a, num b with
  | Some x, Some y => Qeq_bool x y
  | _, _ =>
      match a, b with
      | VNone, VNone => true
      | VStr s, VStr t => str_eqb s t
      | _, _ => false
      end
  end.

Definition hashable (v : val) : bool :=
  match v with
  | VList _ | VDict _ => false
  | _ => true
  end.

(** [100 + v] and the like, for an [int] on the left. *)
Definition int_add (n : Z) (v : val) : res val :=
  match v with
  | VBool b => Ok (VInt (n + (if b then 1 else 0)))
  | VInt z => Ok (VInt (n + z))
  | VFloat q => Ok (VFloat (inject_Z n + q))
  | _ => Raise TypeError
  end.

(** [x in v] for a string [x]. *)
Definition str_in (x : str) (v : val) : res bool :=
  match v with
  | VList l => Ok (existsb (py_eq (VStr x)) l)
  | VStr s => Ok (contains x s)
  | VDict kvs => Ok (existsb (fun kv => str_eqb x kv.1) kvs)
  | _ => Raise TypeError
  end.

(** *** Sorting

    [list.sort] and [sorted] compare keys with [<] only and are stable.
    With two keys or more, the comparisons succeed exactly when the keys
    are all numbers or all strings. *)

Definition is_num (v : val) : bool := if num v is Some _ then true else false.
Definition is_str (v : val) : bool := if v is VStr _ then true else false.
Definition is_list (v : val) : bool := if v is VList _ then true else false.

Definition comparable (ks : list val) : res unit :=
  match ks with
  | [] | [_] => Ok ()
  | _ =>
      if forallb is_num ks then Ok ()
      else if forallb is_str ks then Ok ()
      else if forallb is_list ks then Raise NotModelled
      else Raise TypeError
  end.

(** [a < b] as a boolean, for keys already known to be comparable. *)
Definition ltb (a b : val) : bool :=
  match val_lt a b with
  | Ok b => b
  | Raise _ => false
  end.

Section Sort.
Context {A : Type} (key : A → val).

(** [x] stood before every element of [l]: it goes before the first
    element that is not smaller than itself. *)
Fixpoint insert_sorted (x : A) (l : list A) : list A :=
  match l with
  | [] => [x]
  | y :: l' => if ltb (key y) (key x) then y :: insert_sorted x l' else x :: l
  end.

Definition stable_sort (l : list A) : list A := foldr insert_sorted [] l.

Definition sort_by (l : list A) : res (list A) :=
  _ ← comparable (key <$> l);
  Ok (stable_sort l).
End Sort.

(** [min(vs)] for a non-empty [vs]: the first element that no other one
    is smaller than. *)
Fixpoint min_from (cur : val) (vs : list val) : res val :=
  match vs with
  | [] => Ok cur
  | v :: vs' =>
      val_lt v cur ≫= λ b : bool, min_from (if b then v else cur) vs'
  end.

(** A [set] in insertion order: [s.add(v)] keeps the element already
    there when an equal one is added. *)
Definition set_add (s : list val) (v : val) : res (list val) :=
  if hashable v
  then Ok (if existsb (py_eq v) s then s else s ++ [v])
  else Raise TypeError.

Fixpoint set_update (s : list val) (vs : list val) : res (list val) :=
  match vs with
  | [] => Ok s
  | v :: vs' => s' ← set_add s v; set_update s' vs'
  end.

End Py.

(** ** [scripts/merge_restaurant_lists.py]: matcher and list merger *)

Module MergeLists.
Import PyStr Re Py.
Export Normalizer.

Section WithUnicode.
Context {U : Unicode}.

(** A call [f(v)] of one of the two normalizers on a field value: the
    guard [if not v: return ""] answers for [None] and the other falsy
    values, and [v.lower()] raises on a truthy value that is no string. *)
Definition call_normalizer (f : str → str) (v : val) : res str :=
  if negb (truthy v) then Ok ([] : str)
  else match v with
       | VStr s => Ok (f s)
       | _ => Raise AttributeError
       end.

Definition nonempty (s : str) : bool := if s is [] then false else true.

(** Lines 62-68: exact or partial name match. *)
Definition name_match (nym_name nyt_name : str) : bool :=
  if str_eqb nym_name nyt_name then true
  else if contains nym_name nyt_name || contains nyt_name nym_name then true
  else false.

(** Lines 82-88: same street number and same first ten characters of
    what follows it. *)
Definition street_match (nym_address nyt_address : str) : bool :=
  match search_street nym_address, search_street nyt_address with
  | Some (n1, s1), Some (n2, s2) =>
      str_eqb n1 n2 && str_eqb (take 10 (strip s1)) (take 10 (strip s2))
  | _, _ => false
  end.

(** Lines 74-91. *)
Definition address_match (nym_address nyt_address : str) : bool :=
  if nonempty nym_address && nonempty nyt_address then
    (if str_eqb nym_address nyt_address then true
     else if contains nym_address nyt_address || contains nyt_address nym_address
          then true else false)
    || street_match nym_address nyt_address
  else if negb (nonempty nym_address) || negb (nonempty nyt_address) then true
  else false.

(** Lines 95-98: what the name adds to the score, once it matched. *)
Definition name_points (nym_name nyt_name : str) : Z :=
  (10 + if str_eqb nym_name nyt_name then 5 else 0)%Z.

(** Lines 99-102: what the address adds to the score. *)
Definition address_points (nym_address nyt_address : str) : Z :=
  if address_match nym_address nyt_address
  then (10 + if str_eqb nym_address nyt_address then 5 else 0)%Z
  else 0%Z.

(** Lines 93-102. *)
Definition score (nym_name nym_address nyt_name nyt_address : str) : Z :=
  (0 + name_points nym_name nyt_name + address_points nym_address nyt_address)%Z.

(** The loop of lines 58-106 from index [idx] on; the state is
    [(best_match_idx, best_match_score)]. *)
Fixpoint best_match (nym_name nym_address : str) (idx : nat)
    (nyt_restaurants : list dict) (best : option nat * Z) : res (option nat * Z) :=
  match nyt_restaurants with
  | [] => Ok best
  | nyt_restaurant :: rest =>
      nyt_name ← call_normalizer normalize_name (get_or nyt_restaurant "name" (VStr []));
      nyt_address ← call_normalizer normalize_address
                      (get_or nyt_restaurant "formatted_address" (VStr []));
      if negb (name_match nym_name nyt_name)
      then best_match nym_name nym_address (S idx) rest best
      else
        let sc := score nym_name nym_address nyt_name nyt_address in
        best_match nym_name nym_address (S idx) rest
          (if (best.2 <? sc)%Z then (Some idx, sc) else best)
  end.

Definition find_matching_restaurant (nym_restaurant : dict)
    (nyt_restaurants : list dict) : res (option nat) :=
  nym_name ← call_normalizer normalize_name (get_or nym_restaurant "name" (VStr []));
  nym_address ← call_normalizer normalize_address
                  (get_or nym_restaurant "address" (VStr []));
  if negb (nonempty nym_name) then Ok None
  else
    best ← best_match nym_name nym_address 0 nyt_restaurants (None, 0%Z);
    if (10 <=? best.2)%Z then Ok best.1 else Ok None.

(** Lines 122-127: one NYT entry becomes a base record. *)
Definition base_record (nyt_restaurant : dict) : dict :=
  let restaurant := nyt_restaurant in
  let restaurant := <["sources" := VList [VStr (u "NYT")]]> restaurant in
  let restaurant := <["nyt_rank" := get restaurant "rank"]> restaurant in
  restaurant.

(** [r['sources'].append('NYM')] *)
Definition append_source (tag : str) (r : dict) : res dict :=
  sources ← getitem r "sources";
  match sources with
  | VList l => Ok (<["sources" := VList (l ++ [VStr tag])]> r)
  | _ => Raise AttributeError
  end.

(** Lines 135-142: the matched record takes the NYM entry in. *)
Definition absorb (nym_restaurant : dict) (r : dict) : res dict :=
  r ← append_source (u "NYM") r;
  let r := <["nym_rank" := get nym_restaurant "nym_rank"]> r in
  r ← (if negb (truthy (get r "formatted_address")) && truthy (get nym_restaurant "address")
       then v ← getitem nym_restaurant "address"; Ok (<["formatted_address" := v]> r)
       else Ok r);
  if negb (truthy (get r "website")) && truthy (get nym_restaurant "website")
  then v ← getitem nym_restaurant "website"; Ok (<["website" := v]> r)
  else Ok r.

(** Lines 145-159. *)
Definition new_restaurant (nym_restaurant : dict) : dict :=
  list_to_map
    [("name", get nym_restaurant "name");
     ("sources", VList [VStr (u "NYM")]);
     ("nym_rank", get nym_restaurant "nym_rank");
     ("formatted_address", get nym_restaurant "address");
     ("website", get nym_restaurant "website");
     ("description", get_or nym_restaurant "description" (VStr []));
     ("rank", VNone);
     ("rating", VNone);
     ("review_count", VNone);
     ("price_range", VNone);
     ("cuisine", VNone);
     ("image_url", VNone)].

(** The loop of lines 130-160. *)
Fixpoint merge_nym (nym_restaurants : list dict) (merged : list dict) : res (list dict) :=
  match nym_restaurants with
  | [] => Ok merged
  | nym_restaurant :: rest =>
      match_idx ← find_matching_restaurant nym_restaurant merged;
      match match_idx with
      | Some i =>
          match merged !! i with
          | Some r =>
              r' ← absorb nym_restaurant r;
              merge_nym rest (<[i := r']> merged)
          | None => Raise IndexError
          end
      | None => merge_nym rest (merged ++ [new_restaurant nym_restaurant])
      end
  end.

(** Lines 163-172. *)
Definition set_combined_order (restaurant : dict) : res dict :=
  str_in (u "NYT") (get_or restaurant "sources" (VList [])) ≫= λ is_nyt : bool,
  if is_nyt
  then Ok (<["combined_order" := get_or restaurant "nyt_rank" (VInt 999)]> restaurant)
  else
    str_in (u "NYM") (get_or restaurant "sources" (VList [])) ≫= λ is_nym : bool,
    if is_nym
    then
      v ← int_add 100 (get_or restaurant "nym_rank" (VInt 999));
      Ok (<["combined_order" := v]> restaurant)
    else Ok (<["combined_order" := VInt 999]> restaurant).

(** The sort key of line 175 (and of the deduplicator). *)
Definition order_key (x : dict) : val := get_or x "combined_order" (VInt 999).

Definition merge_restaurant_lists (nyt_restaurants nym_restaurants : list dict)
    : res (list dict) :=
  let merged := base_record <$> nyt_restaurants in
  merged ← merge_nym nym_restaurants merged;
  merged ← mapM set_combined_order merged;
  sort_by order_key merged.

End WithUnicode.
End MergeLists.

(** ** [scripts/deduplicate_restaurants.py] *)

Module Dedup.
Import PyStr Py.

(** Lines 26-33: the union of the groups' source tags, sorted. *)
Fixpoint collect_sources (restaurants : list dict) (all_sources : list val)
    : res (list val) :=
  match restaurants with
  | [] => Ok all_sources
  | r :: rest =>
      let sources := get_or r "sources" (VList []) in
      all_sources ←
        match sources with
        | VList l => set_update all_sources l
        | _ => if truthy sources then set_add all_sources sources else Ok all_sources
        end;
      collect_sources rest all_sources
  end.

(** [[r.get(k) for r in restaurants if r.get(k)]] *)
Definition truthy_values (k : string) (restaurants : list dict) : list val :=
  filter (fun v => truthy v = true) ((fun r => get r k) <$> restaurants).

(** Lines 36-42, for one of the two rank fields. *)
Definition keep_best_rank (k : string) (restaurants : list dict) (merged : dict)
    : res dict :=
  match truthy_values k restaurants with
  | [] => Ok merged
  | v :: vs => best ← min_from v vs; Ok (<[k := best]> merged)
  end.

(** Lines 44-50. *)
Definition set_combined_order (merged : dict) : res dict :=
  if truthy (get merged "nyt_rank") then
    v ← getitem merged "nyt_rank"; Ok (<["combined_order" := v]> merged)
  else if truthy (get merged "nym_rank") then
    r ← getitem merged "nym_rank";
    v ← int_add 100 r;
    Ok (<["combined_order" := v]> merged)
  else Ok (<["combined_order" := VInt 999]> merged).

Definition descriptive_fields : list string :=
  ["name"; "description"; "formatted_address"; "website"; "phone";
   "google_maps_url"; "cuisine"; "price_range"; "image_url"].

(** Lines 57-58, for one field. *)
Definition fill_field (r : dict) (merged : dict) (field : string) : res dict :=
  if negb (truthy (get merged field)) && truthy (get r field)
  then v ← getitem r field; Ok (<[field := v]> merged)
  else Ok merged.

(** [cand and (not cur or cand > cur)], with Python's short-circuit
    evaluation: the comparison runs only when both are truthy. *)
Definition improves (cand cur : val) : res bool :=
  if negb (truthy cand) then Ok false
  else if negb (truthy cur) then Ok true
  else val_gt cand cur.

(** Lines 61-63 (with [k := "rating"], [gk := "google_rating"]) and
    lines 66-68 (with [k := "review_count"], [gk := "google_review_count"]). *)
Definition prefer_higher (k gk : string) (r : dict) (merged : dict) : res dict :=
  improves (get r k) (get merged k) ≫= λ b : bool,
  if b then
    v ← getitem r k;
    let merged := <[k := v]> merged in
    Ok (<[gk := get_or r gk v]> merged)
  else Ok merged.

(** Lines 71-73. *)
Definition fill_coordinates (r : dict) (merged : dict) : res dict :=
  if negb (truthy (get merged "latitude")) && truthy (get r "latitude")
  then
    lat ← getitem r "latitude";
    let merged := <["latitude" := lat]> merged in
    lng ← getitem r "longitude";
    Ok (<["longitude" := lng]> merged)
  else Ok merged.

(** Lines 76-78. *)
Definition fill_opening_hours (r : dict) (merged : dict) : res dict :=
  if negb (truthy (get merged "opening_hours")) && truthy (get r "opening_hours")
  then
    h ← getitem r "opening_hours";
    let merged := <["opening_hours" := h]> merged in
    Ok (<["is_open_now" := get r "is_open_now"]> merged)
  else Ok merged.

(** Lines 81-82. *)
Definition keep_latest (r : dict) (merged : dict) : res dict :=
  improves (get r "last_updated") (get merged "last_updated") ≫= λ b : bool,
  if b then v ← getitem r "last_updated"; Ok (<["last_updated" := v]> merged)
  else Ok merged.

(** The body of the loop of lines 53-82, for one later record [r]. *)
Definition merge_record (merged : dict) (r : dict) : res dict :=
  merged ← for_each (fill_field r) merged descriptive_fields;
  merged ← prefer_higher "rating" "google_rating" r merged;
  merged ← prefer_higher "review_count" "google_review_count" r merged;
  merged ← fill_coordinates r merged;
  merged ← fill_opening_hours r merged;
  keep_latest r merged.

Definition merge_restaurant_data (restaurants : list dict) : res dict :=
  match restaurants with
  | [] => Ok ∅
  | [r] => Ok r
  | first :: later =>
      let merged := first in
      all_sources ← collect_sources restaurants [];
      sources ← sort_by id all_sources;
      let merged := <["sources" := VList sources]> merged in
      merged ← keep_best_rank "nyt_rank" restaurants merged;
      merged ← keep_best_rank "nym_rank" restaurants merged;
      merged ← set_combined_order merged;
      for_each merge_record merged later
  end.

(** An entry of [duplicates_found]. *)
Record duplicate := {
  dup_place_id : val;
  dup_count : nat;
  dup_names : list val
}.

Section WithUnicode.
Context {U : Unicode}.

(** [restaurant.get(k, '').lower().strip()] *)
Definition lower_strip (v : val) : res str :=
  match v with
  | VStr s => Ok (strip (lower s))
  | _ => Raise AttributeError
  end.

(** Lines 95-102: the key under which a record is grouped.
    [no_place_id] is the list of line 92. *)
Definition group_key (no_place_id : list dict) (restaurant : dict) : res val :=
  let place_id := get restaurant "place_id" in
  if truthy place_id then
    (if hashable place_id then Ok place_id else Raise TypeError)
  else
    name ← lower_strip (get_or restaurant "name" (VStr []));
    address ← lower_strip (get_or restaurant "formatted_address" (VStr []));
    Ok (VStr (if MergeLists.nonempty name && MergeLists.nonempty address
              then name ++ u "::" ++ address
              else u "no-place-id-" ++ str_of_N (N.of_nat (length no_place_id)))).

(** [by_place_id[key].append(restaurant)] on a [defaultdict(list)], kept
    in insertion order of its keys. *)
Fixpoint group_append (by_place_id : list (val * list dict)) (key : val)
    (restaurant : dict) : list (val * list dict) :=
  match by_place_id with
  | [] => [(key, [restaurant])]
  | (k, group) :: rest =>
      if py_eq k key then (k, group ++ [restaurant]) :: rest
      else (k, group) :: group_append rest key restaurant
  end.

(** The loop of lines 94-103.  Nothing is ever appended to
    [no_place_id]. *)
Fixpoint group_all (restaurants : list dict) (by_place_id : list (val * list dict))
    (no_place_id : list dict) : res (list (val * list dict)) :=
  match restaurants with
  | [] => Ok by_place_id
  | restaurant :: rest =>
      key ← group_key no_place_id restaurant;
      group_all rest (group_append by_place_id key restaurant) no_place_id
  end.

(** The loop of lines 109-119; the state is
    [(deduplicated, duplicates_found)]. *)
Fixpoint merge_groups (groups : list (val * list dict))
    (acc : list dict * list duplicate) : res (list dict * list duplicate) :=
  match groups with
  | [] => Ok acc
  | (place_id, group) :: rest =>
      match group with
      | [] => Raise IndexError
      | [r] => merge_groups rest (acc.1 ++ [r], acc.2)
      | _ =>
          let dup := {| dup_place_id := place_id;
                        dup_count := length group;
                        dup_names := (fun r => get r "name") <$> group |} in
          merged ← merge_restaurant_data group;
          merge_groups rest (acc.1 ++ [merged], acc.2 ++ [dup])
      end
  end.

Definition deduplicate_restaurants (restaurants : list dict)
    : res (list dict * list duplicate) :=
  by_place_id ← group_all restaurants [] [];
  '(deduplicated, duplicates_found) ← merge_groups by_place_id ([], []);
  deduplicated ← sort_by MergeLists.order_key deduplicated;
  Ok (deduplicated, duplicates_found).

End WithUnicode.
End Dedup.

(** ** The records of the scenarios *)

Module Scenario.
Import PyStr Py.

Definition record (fields : list (string * val)) : dict := list_to_map fields.
Definition s (text : string) : val := VStr (u text).

(** Two different restaurants, neither with a place id nor an address. *)
Definition cafe_a : dict := record [("name", s "Cafe A")].
Definition bistro_b : dict := record [("name", s "Bistro B")].

(** An address without a name, and a complete unenriched record. *)
Definition main_st : dict := record [("formatted_address", s "1 Main St")].
Definition cafe_a_main_st : dict :=
  record [("name", s "cafe a"); ("formatted_address", s "1 main st")].

(** Scenario B of the specification, and the same place with the review
    counts the other way round. *)
Definition abc_low : dict :=
  record [("place_id", s "abc123"); ("rating", VFloat 4.2); ("review_count", VInt 100)].
Definition abc_high : dict :=
  record [("place_id", s "abc123"); ("rating", VFloat 4.6); ("review_count", VInt 250)].
Definition abc_low_popular : dict :=
  record [("place_id", s "abc123"); ("rating", VFloat 4.2); ("review_count", VInt 300)].

(** Scenario A: one NYT entry, and NYM entries for the same restaurant. *)
Definition semma_nyt : dict := record [("name", s "Semma"); ("rank", VInt 1)].
Definition semma_nym : dict :=
  record [("name", s "semma"); ("address", s "60 Greenwich Ave"); ("nym_rank", VInt 4)].
Definition semma_nym_again : dict :=
  record [("name", s "Semma"); ("nym_rank", VInt 7)].

(** What [parse_html.py] emits for a headline without a rank, and an NYM
    entry without [nym_rank]. *)
Definition unranked_nyt : dict := record [("name", s "Semma"); ("rank", VNone)].
Definition unranked_nym : dict := record [("name", s "Semma")].

(** Two NYT candidates of the same name, only the first with an address. *)
Definition joes_with_address : dict :=
  record [("name", s "Joe's Pizza"); ("formatted_address", s "7 Carmine St")].
Definition joes_without_address : dict := record [("name", s "Joe's Pizza")].
Definition joes_nym : dict := record [("name", s "Joe's Pizza"); ("nym_rank", VInt 2)].

(** Three enriched records with distinct [combined_order]; the first two
    share a place id. *)
Definition p_ranked : dict :=
  record [("place_id", s "p"); ("name", s "P"); ("nyt_rank", VInt 1);
          ("combined_order", VInt 10)].
Definition p_unranked : dict :=
  record [("place_id", s "p"); ("name", s "P"); ("combined_order", VInt 11)].
Definition q_first : dict :=
  record [("place_id", s "q"); ("name", s "Q"); ("combined_order", VInt 1)].

End Scenario.

(** * Properties *)

Module Properties.
Import PyStr Re Py.
Import Scenario.

#[local] Existing Instance ucd_excerpt.

(** C1, on the code: [no_place_id] stays empty, so the fallback key is the
    constant ["no-place-id-0"] for every record.  Two different restaurants
    that have neither a place id nor an address get that same key, form one
    group and are merged into a single record under the name of the first;
    the second one is lost. *)
Theorem synthetic_key_collision :
  Dedup.group_key [] cafe_a = Ok (s "no-place-id-0") ∧
  Dedup.group_key [] bistro_b = Ok (s "no-place-id-0") ∧
  ∃ merged,
    Dedup.deduplicate_restaurants [cafe_a; bistro_b]
    = Ok ([merged],
          [{| Dedup.dup_place_id := s "no-place-id-0";
              Dedup.dup_count := 2;
              Dedup.dup_names := [s "Cafe A"; s "Bistro B"] |}]) ∧
    get merged "name" = s "Cafe A".
Proof.
  split; [reflexivity|]. split; [reflexivity|].
  eexists. split; vm_compute; reflexivity.
Qed.

(** C3, on the code: nothing records which base records were matched.  An
    NYM entry listed twice is matched to the same NYT record both times, and
    that record ends with the tag NYM twice in [sources]. *)
Theorem base_record_absorbs_twice :
  ∃ r,
    MergeLists.merge_restaurant_lists [semma_nyt] [semma_nym; semma_nym_again] = Ok [r] ∧
    get r "sources" = VList [s "NYT"; s "NYM"; s "NYM"] ∧
    ¬ NoDup [s "NYT"; s "NYM"; s "NYM"].
Proof.
  eexists. split; [vm_compute; reflexivity|]. split; [vm_compute; reflexivity|].
  intros Hnd. inversion Hnd as [|? ? _ Hnd']. inversion Hnd' as [|? ? Hin _].
  apply Hin. left.
Qed.

(** C4, on the code of the list merger: the defaults of
    [.get('nyt_rank', 999)] and [.get('nym_rank', 999)] never apply, because
    both keys are always bound, possibly to [None].  An NYM entry without a
    rank makes [100 + None] raise, and an NYT entry without a rank gets
    [None], not 999, as its [combined_order]. *)
Theorem combined_order_fails_without_rank :
  MergeLists.set_combined_order (MergeLists.new_restaurant unranked_nym) = Raise TypeError ∧
  MergeLists.merge_restaurant_lists [] [unranked_nym] = Raise TypeError ∧
  (∃ r, MergeLists.merge_restaurant_lists [unranked_nyt] [] = Ok [r] ∧
        r !! "combined_order" = Some VNone) ∧
  MergeLists.merge_restaurant_lists [unranked_nyt; semma_nyt] [] = Raise TypeError.
Proof.
  split; [reflexivity|]. split; [reflexivity|]. split; [|reflexivity].
  eexists. split; vm_compute; reflexivity.
Qed.

(** C5, on the code: when both sides lack an address the vacuous match gets
    the +5 of an exact match as well, since the two empty keys are equal.
    The bonus decides matches: an NYM entry without address prefers the
    candidate without address to an earlier one of the same name. *)
Theorem vacuous_address_bonus :
  MergeLists.address_points [] [] = 15%Z ∧
  MergeLists.find_matching_restaurant joes_nym [joes_with_address; joes_without_address]
  = Ok (Some 1%nat).
Proof. split; reflexivity. Qed.

(** C8, on the code: the two records that share the constant fallback key
    are merged by the first pass into a record that has both a name and an
    address.  The second pass keys it by name and address, finds the third
    record under the same key, and merges again. *)
Theorem second_pass_merges_again :
  ∃ first_pass merged dups,
    Dedup.deduplicate_restaurants [cafe_a; main_st; cafe_a_main_st] = Ok (first_pass, dups) ∧
    length first_pass = 2%nat ∧
    Dedup.deduplicate_restaurants first_pass
    = Ok ([merged],
          [{| Dedup.dup_place_id := s "cafe a::1 main st";
              Dedup.dup_count := 2;
              Dedup.dup_names := [s "Cafe A"; s "cafe a"] |}]).
Proof.
  eexists _, _, _. split; [vm_compute; reflexivity|].
  split; vm_compute; reflexivity.
Qed.

(** C9: the field merger returns the empty mapping for an empty group and
    the record itself for a group of one. *)
Theorem merge_restaurant_data_small :
  Dedup.merge_restaurant_data [] = Ok ∅ ∧
  ∀ r : dict, Dedup.merge_restaurant_data [r] = Ok r.
Proof. split; [reflexivity|]. intros r. reflexivity. Qed.

(** C2 does not hold as stated: the higher rating comes from the second
    record and the higher review count from the first, and the merged record
    carries both. *)
Lemma rating_review_count_unpaired :
  ∃ merged,
    Dedup.merge_restaurant_data [abc_low_popular; abc_high] = Ok merged ∧
    get merged "rating" = get abc_high "rating" ∧
    get merged "review_count" = get abc_low_popular "review_count" ∧
    get abc_low_popular "review_count" ≠ get abc_high "review_count".
Proof.
  eexists. split; [vm_compute; reflexivity|].
  split; [vm_compute; reflexivity|]. split; [vm_compute; reflexivity|].
  vm_compute. discriminate.
Qed.

(** C6 does not hold as stated: neither [normalize_name] makes
    ["Joe & Sons"] and ["joe and sons"] equal.  The one of
    [merge_restaurant_lists.py] deletes the ampersand, the one of
    [merge_place_ids.py] keeps the capitals. *)
Lemma ampersand_not_expanded :
  Normalizer.normalize_name (u "Joe & Sons") = u "joe sons" ∧
  Normalizer.normalize_name (u "joe and sons") = u "joe and sons" ∧
  Normalizer.normalize_name (u "Joe & Sons") ≠ Normalizer.normalize_name (u "joe and sons") ∧
  MergePlaceIds.normalize_name (u "Joe & Sons") = u "Joe and Sons" ∧
  MergePlaceIds.normalize_name (u "Joe & Sons") ≠ MergePlaceIds.normalize_name (u "joe and sons").
Proof.
  split; [reflexivity|]. split; [reflexivity|]. split; [vm_compute; discriminate|].
  split; [reflexivity|]. vm_compute; discriminate.
Qed.

(** C7 does not hold as stated: punctuation is deleted after the string
    was stripped, so whitespace that followed it is left at the front and
    only a second pass strips it; and deleting punctuation can put a suffix
    word together that only a second pass abbreviates. *)
Lemma normalizers_not_idempotent :
  Normalizer.normalize_name (u "! a") = u " a" ∧
  Normalizer.normalize_name (Normalizer.normalize_name (u "! a")) = u "a" ∧
  Normalizer.normalize_address (u "5 main str.eet") = u "5 main street" ∧
  Normalizer.normalize_address (Normalizer.normalize_address (u "5 main str.eet"))
  = u "5 main st".
Proof. repeat split; reflexivity. Qed.

(** C10 does not hold as stated: the three records carry the distinct
    values 10, 11 and 1, yet the two that are merged are sorted under the
    recomputed value 1, tie with the third, and the stable sort leaves the
    two results in the order in which their groups were met. *)
Lemma output_order_depends_on_input_order :
  ∃ merged dups,
    Dedup.deduplicate_restaurants [p_ranked; p_unranked; q_first] = Ok ([merged; q_first], dups) ∧
    Dedup.deduplicate_restaurants [q_first; p_ranked; p_unranked] = Ok ([q_first; merged], dups) ∧
    merged ≠ q_first ∧
    get merged "combined_order" = VInt 1.
Proof.
  eexists _, _. split; [vm_compute; reflexivity|]. split; [vm_compute; reflexivity|].
  split; [|vm_compute; reflexivity].
  intros Heq. apply (f_equal (λ d : dict, d !! "place_id")) in Heq.
  vm_compute in Heq. discriminate.
Qed.

End Properties.
